(** * Mortgage calculator: the amortization core of [app.js]

    A shallow embedding of [calculateMortgage] (app.js, lines 24-58) and of
    the application state it lives next to, with the properties the
    specification states about it.

    The function is embedded twice, line for line.

    Exact arithmetic (module [JS]).  A number is a real number or [NaN] and
    every operation is exact: this is the formula the code evaluates, free
    of rounding, overflow and underflow.  [NaN] is kept because the
    validation guard behaves differently on it.  Where JavaScript would
    produce an infinity from real operands (a zero divisor, a zero base
    raised to a negative exponent) this model yields [NaN], its only
    non-real value; no accepted run reaches such a case (lemma
    [model_adequate]).  Statements proved here are statements about the
    guard, about [NaN], or about the exact values of the formula, and say
    so.

    Doubles (module [Double]).  A number is an IEEE binary64 value and the
    operations are those of the machine; [Math.pow] is a parameter.  This
    is what the code returns, digit for digit, and where the two models
    part the statements are read on this one.

    The arguments of [calculateMortgage] are numbers; the text values of
    the form are not modelled. *)

From Stdlib Require Import Reals Lra Lia ZArith Bool String List.
From Stdlib Require Import Floats.PrimFloat Floats.FloatOps Floats.SpecFloat
  Floats.FloatAxioms.

#[local] Set Warnings "-inexact-float".
Import ListNotations.

Local Open Scope R_scope.

(** ** JavaScript numbers in exact arithmetic *)

Module JS.

Inductive number : Type :=
| Num (x : R)
| NaN.

(** [a <= b]: false as soon as one side is [NaN]. *)
Definition le (a b : number) : bool :=
  match a, b with
  | Num x, Num y => if Rle_dec x y then true else false
  | _, _ => false
  end.

(** [a < b]: false as soon as one side is [NaN]. *)
Definition lt (a b : number) : bool :=
  match a, b with
  | Num x, Num y => if Rlt_dec x y then true else false
  | _, _ => false
  end.

(** [a === b] on numbers: [NaN] is not equal to anything. *)
Definition strict_eq (a b : number) : bool :=
  match a, b with
  | Num x, Num y => if Req_dec_T x y then true else false
  | _, _ => false
  end.

Definition add (a b : number) : number :=
  match a, b with
  | Num x, Num y => Num (x + y)
  | _, _ => NaN
  end.

Definition sub (a b : number) : number :=
  match a, b with
  | Num x, Num y => Num (x - y)
  | _, _ => NaN
  end.

Definition mul (a b : number) : number :=
  match a, b with
  | Num x, Num y => Num (x * y)
  | _, _ => NaN
  end.

(** [a / b].  A zero divisor gives a non-real result in JavaScript. *)
Definition div (a b : number) : number :=
  match a, b with
  | Num x, Num y => if Req_dec_T y 0 then NaN else Num (x / y)
  | _, _ => NaN
  end.

(** [y] is an integer. *)
Definition is_integer (y : R) : bool :=
  if Req_dec_T y (IZR (Int_part y)) then true else false.

(** [Math.pow(b, e)], in the order of the language definition: a [NaN]
    exponent gives [NaN]; a zero exponent gives 1 whatever the base; a [NaN]
    base gives [NaN]; a positive base is the real power; a zero base gives 0
    for a positive exponent and a non-real result for a negative one; a
    negative base has a real power for integer exponents only. *)
Definition Math_pow (b e : number) : number :=
  match e with
  | NaN => NaN
  | Num y =>
      if Req_dec_T y 0 then Num 1
      else
        match b with
        | NaN => NaN
        | Num x =>
            if Rlt_dec 0 x then Num (Rpower x y)
            else if Req_dec_T x 0 then (if Rlt_dec 0 y then Num 0 else NaN)
            else if is_integer y then Num (powerRZ x (Int_part y))
            else NaN
        end
      end.

(** [parseFloat(v)] on a number: the number is printed and read back, which
    gives the number itself ([NaN] prints as a text that does not parse). *)
Definition parseFloat (v : number) : number := v.

End JS.

Import JS.

(** ** The payment summary (the object literal of lines 50-57) *)

Record Summary : Type := mkSummary {
  monthlyPayment : number;
  totalPayment : number;
  totalInterest : number;
  principalAmount : number;
  interestPercentage : number;
  principalPercentage : number
}.

(** ** [calculateMortgage]

    The body is written once, over the division and the power operation it
    uses, so that statements about which of them a run depends on can be
    made; [calculateMortgage] is the body at JavaScript's own [/] and
    [Math.pow].  [None] is the [null] of line 32. *)

Section Body.

Variable divide : number -> number -> number.
Variable power : number -> number -> number.

Definition calculateMortgage_body (principal annualRate years : number)
  : option Summary :=
  let P := parseFloat principal in
  let r := divide (divide (parseFloat annualRate) (Num 12)) (Num 100) in
  let n := mul (parseFloat years) (Num 12) in
  if le P (Num 0) || lt annualRate (Num 0) || le years (Num 0) then None
  else
    let monthlyPayment :=
      if strict_eq r (Num 0) then divide P n
      else
        let numerator := mul r (power (add (Num 1) r) n) in
        let denominator := sub (power (add (Num 1) r) n) (Num 1) in
        mul P (divide numerator denominator) in
    let totalPayment := mul monthlyPayment n in
    let totalInterest := sub totalPayment P in
    let principalAmount := P in
    Some {| monthlyPayment := monthlyPayment;
            totalPayment := totalPayment;
            totalInterest := totalInterest;
            principalAmount := principalAmount;
            interestPercentage :=
              mul (divide totalInterest totalPayment) (Num 100);
            principalPercentage :=
              mul (divide principalAmount totalPayment) (Num 100) |}.

End Body.

Definition calculateMortgage : number -> number -> number -> option Summary :=
  calculateMortgage_body div Math_pow.

(** ** [calculateMortgage] on doubles

    The same lines 24-58 over IEEE binary64 numbers, with the arithmetic
    and the comparisons of JavaScript: every operation rounds to nearest,
    overflows to an infinity, underflows to zero and propagates [NaN].
    [Math.pow] is the one operation whose result the language leaves to
    the implementation ("implementation-approximated"), so it is a
    parameter of the model; where a statement needs a fact about it, the
    fact is an explicit hypothesis. *)

Module Double.

Local Open Scope float_scope.

(** [parseFloat(v)] on a number: the number is printed and read back, which
    gives the number itself, except that [-0] prints as ["0"] and comes
    back as [0]. *)
Definition parseFloat (v : float) : float := if v =? 0 then 0 else v.

Record Summary : Type := mkSummary {
  monthlyPayment : float;
  totalPayment : float;
  totalInterest : float;
  principalAmount : float;
  interestPercentage : float;
  principalPercentage : float
}.

(** Line 27: the monthly rate. *)
Definition rate (annualRate : float) : float :=
  parseFloat annualRate / 12 / 100.

(** Line 28: the number of payments. *)
Definition payments (years : float) : float := parseFloat years * 12.

(** The guard of line 31. *)
Definition rejected (principal annualRate years : float) : bool :=
  (parseFloat principal <=? 0) || (annualRate <? 0) || (years <=? 0).

Section Pow.

Variable Math_pow : float -> float -> float.

(** Lines 41 and 42. *)
Definition numerator (r n : float) : float := r * Math_pow (1 + r) n.

Definition denominator (r n : float) : float := Math_pow (1 + r) n - 1.

Definition calculateMortgage (principal annualRate years : float)
  : option Summary :=
  let P := parseFloat principal in
  let r := rate annualRate in
  let n := payments years in
  if (P <=? 0) || (annualRate <? 0) || (years <=? 0) then None
  else
    let monthlyPayment :=
      if r =? 0 then P / n
      else P * (numerator r n / denominator r n) in
    let totalPayment := monthlyPayment * n in
    let totalInterest := totalPayment - P in
    let principalAmount := P in
    Some {| monthlyPayment := monthlyPayment;
            totalPayment := totalPayment;
            totalInterest := totalInterest;
            principalAmount := principalAmount;
            interestPercentage := totalInterest / totalPayment * 100;
            principalPercentage := principalAmount / totalPayment * 100 |}.

End Pow.

(** The summary built by lines 46-57 from the principal [P], the number of
    payments [n] and the monthly payment [m]. *)
Definition summary_of (P n m : float) : Summary :=
  {| monthlyPayment := m;
     totalPayment := m * n;
     totalInterest := m * n - P;
     principalAmount := P;
     interestPercentage := (m * n - P) / (m * n) * 100;
     principalPercentage := P / (m * n) * 100 |}.

(** A valid loan: [P > 0], [R >= 0], [T > 0]. *)
Definition valid (P R T : float) : Prop :=
  (0 <? P) = true /\ (0 <=? R) = true /\ (0 <? T) = true.


End Double.

(** ** The application state (lines 5-14) and the in-memory storage

    The fields of the [state] object that hold data; the chart handle is a
    drawing object and is left out.  [window.mortgageData] is the storage
    slot written by [saveToStorage]. *)

Record State : Type := mkState {
  principal : string;
  interestRate : string;
  loanTerm : string;
  mortgageType : string;
  theme : string;
  results : option Summary
}.

Record Data : Type := mkData {
  d_principal : string;
  d_interestRate : string;
  d_loanTerm : string;
  d_mortgageType : string;
  d_theme : string
}.

Record World : Type := mkWorld {
  state : State;
  mortgageData : option Data
}.

(** A computation that may read and write the world. *)
Definition Run (A : Type) : Type := World -> A * World.

Definition ret {A : Type} (a : A) : Run A := fun w => (a, w).

Definition bind {A B : Type} (c : Run A) (k : A -> Run B) : Run B :=
  fun w => let (a, w') := c w in k a w'.

Notation "x <- c ;; k" := (bind c (fun x => k))
  (at level 61, c at next level, right associativity).
Notation "c ;;; k" := (bind c (fun _ => k))
  (at level 61, right associativity).

Definition modify_state (f : State -> State) : Run unit :=
  fun w => (tt, {| state := f (state w); mortgageData := mortgageData w |}).

(** [s || d] on strings: the empty string is falsy. *)
Definition or_default (s d : string) : string :=
  if String.eqb s EmptyString then d else s.

(** Lines 81-96. *)
Definition saveToStorage : Run unit :=
  fun w =>
    let s := state w in
    (tt, {| state := s;
            mortgageData :=
              Some {| d_principal := principal s;
                      d_interestRate := interestRate s;
                      d_loanTerm := loanTerm s;
                      d_mortgageType := mortgageType s;
                      d_theme := theme s |} |}).

(** Lines 98-114. *)
Definition loadFromStorage : Run bool :=
  fun w =>
    match mortgageData w with
    | Some data =>
        (true,
         {| state :=
              {| principal := or_default (d_principal data) "";
                 interestRate := or_default (d_interestRate data) "";
                 loanTerm := or_default (d_loanTerm data) "";
                 mortgageType := or_default (d_mortgageType data) "fixed";
                 theme := or_default (d_theme data) "light";
                 results := results (state w) |};
            mortgageData := mortgageData w |})
    | None => (false, w)
    end.

(** Lines 120-135, without the document and chart updates. *)
Definition setTheme (t : string) : Run unit :=
  modify_state (fun s =>
    {| principal := principal s; interestRate := interestRate s;
       loanTerm := loanTerm s; mortgageType := mortgageType s;
       theme := t; results := results s |}) ;;;
  saveToStorage.

(** Lines 137-140. *)
Definition toggleTheme : Run unit :=
  fun w =>
    let newTheme :=
      if String.eqb (theme (state w)) "light" then "dark"%string
      else "light"%string in
    setTheme newTheme w.

(** Lines 333-358, without the form and chart updates. *)
Definition resetForm : Run unit :=
  modify_state (fun s =>
    {| principal := ""; interestRate := ""; loanTerm := "";
       mortgageType := "fixed"; theme := theme s; results := None |}) ;;;
  saveToStorage.

(** [calculateMortgage] as it runs inside the application, statement by
    statement: every step is a local binding, none reads or writes the
    world. *)
Definition calculateMortgage_run (principal annualRate years : number)
  : Run (option Summary) :=
  P <- ret (parseFloat principal) ;;
  r <- ret (div (div (parseFloat annualRate) (Num 12)) (Num 100)) ;;
  n <- ret (mul (parseFloat years) (Num 12)) ;;
  if le P (Num 0) || lt annualRate (Num 0) || le years (Num 0) then ret None
  else
    monthlyPayment <-
      (if strict_eq r (Num 0) then ret (div P n)
       else
         numerator <- ret (mul r (Math_pow (add (Num 1) r) n)) ;;
         denominator <- ret (sub (Math_pow (add (Num 1) r) n) (Num 1)) ;;
         ret (mul P (div numerator denominator))) ;;
    totalPayment <- ret (mul monthlyPayment n) ;;
    totalInterest <- ret (sub totalPayment P) ;;
    principalAmount <- ret P ;;
    ret (Some {| monthlyPayment := monthlyPayment;
                 totalPayment := totalPayment;
                 totalInterest := totalInterest;
                 principalAmount := principalAmount;
                 interestPercentage :=
                   mul (div totalInterest totalPayment) (Num 100);
                 principalPercentage :=
                   mul (div principalAmount totalPayment) (Num 100) |}).

(** The operations of the application shell that change the world. *)
Inductive action : Type :=
| SaveToStorage
| LoadFromStorage
| SetTheme (t : string)
| ToggleTheme
| ResetForm
| StoreResults (r : option Summary).

(** [state.results = r] (lines 309, 315, 324, 328). *)
Definition storeResults (r : option Summary) : Run unit :=
  modify_state (fun s =>
    {| principal := principal s; interestRate := interestRate s;
       loanTerm := loanTerm s; mortgageType := mortgageType s;
       theme := theme s; results := r |}).

Definition perform (a : action) (w : World) : World :=
  match a with
  | SaveToStorage => snd (saveToStorage w)
  | LoadFromStorage => snd (loadFromStorage w)
  | SetTheme t => snd (setTheme t w)
  | ToggleTheme => snd (toggleTheme w)
  | ResetForm => snd (resetForm w)
  | StoreResults r => snd (storeResults r w)
  end.

Definition perform_all (l : list action) (w : World) : World :=
  fold_left (fun w a => perform a w) l w.

(** ** Vocabulary of the statements *)

(** The factor [r (1+r)^n / ((1+r)^n - 1)] of the mortgage formula. *)
Definition annuity (r n : R) : R :=
  r * Rpower (1 + r) n / (Rpower (1 + r) n - 1).

(** The summary built by lines 46-57 from a real principal [P], a real
    number of payments [n] and a real monthly payment [m]. *)
Definition summary_of (P n m : R) : Summary :=
  {| monthlyPayment := Num m;
     totalPayment := Num (m * n);
     totalInterest := Num (m * n - P);
     principalAmount := Num P;
     interestPercentage := Num ((m * n - P) / (m * n) * 100);
     principalPercentage := Num (P / (m * n) * 100) |}.

(** A division operation that is the real quotient whenever the divisor is
    a nonzero real; nothing is asked of it at a zero divisor. *)
Definition real_division (dv : number -> number -> number) : Prop :=
  forall x y : R, y <> 0 -> dv (Num x) (Num y) = Num (x / y).

(** The guard of line 31. *)
Definition rejected (principal annualRate years : number) : bool :=
  le (parseFloat principal) (Num 0) || lt annualRate (Num 0)
  || le years (Num 0).

(** [a] is a real number within [tol] of [v]. *)
Definition near (tol : R) (a : number) (v : R) : Prop :=
  exists x : R, a = Num x /\ Rabs (x - v) < tol.

(** A division operation that is [div] except, possibly, at a real zero
    divisor. *)
Definition same_off_zero_divisor (dv : number -> number -> number) : Prop :=
  forall a b : number, b <> Num 0 -> dv a b = div a b.

(** A power operation that is [Math_pow] whenever the base is positive or
    [NaN]. *)
Definition same_on_positive_base (pw : number -> number -> number) : Prop :=
  forall b e : number,
    (b = NaN \/ exists x : R, b = Num x /\ 0 < x) -> pw b e = Math_pow b e.

(** A positive real, or [NaN]. *)
Definition pos_or_nan (v : number) : Prop :=
  v = NaN \/ exists x : R, v = Num x /\ 0 < x.

(** The scenario of the specification with the figures it quotes, read as
    whole currency units: each result within one unit of the quoted
    figure. *)
Definition scenario_as_specified : Prop :=
  exists s : Summary,
    calculateMortgage (Num 1000000) (Num 8) (Num 20) = Some s
    /\ near 1 (monthlyPayment s) 8364
    /\ near 1 (totalPayment s) 2007467
    /\ near 1 (totalInterest s) 1007467.

(** The [state] object as the script creates it (lines 6-14), with nothing
    stored yet. *)
Definition initial_world : World :=
  {| state := {| principal := ""; interestRate := ""; loanTerm := "";
                 mortgageType := "fixed"; theme := "light";
                 results := None |};
     mortgageData := None |}.

(** The object [saveToStorage] builds from the state (lines 82-88). *)
Definition snapshot (s : State) : Data :=
  {| d_principal := principal s;
     d_interestRate := interestRate s;
     d_loanTerm := loanTerm s;
     d_mortgageType := mortgageType s;
     d_theme := theme s |}.

(** Whatever is stored is a copy of the five persisted fields of the
    current state. *)
Definition mirrors (w : World) : Prop :=
  forall d : Data, mortgageData w = Some d -> d = snapshot (state w).

(** The loan type and the theme are not the empty text, which
    [loadFromStorage] would replace by its defaults. *)
Definition named (s : State) : Prop :=
  mortgageType s <> EmptyString /\ theme s <> EmptyString.

(** No [setTheme] of the sequence is given the empty text. *)
Fixpoint themes_named (l : list action) : Prop :=
  match l with
  | [] => True
  | SetTheme t :: l' => t <> EmptyString /\ themes_named l'
  | _ :: l' => themes_named l'
  end.



(** *** The statements about exact values, read on the doubles

    Each says: there is a power operation (with the value every
    implementation gives at the arguments used) under which the statement
    holds of the doubles [calculateMortgage] returns. *)


(** At a rate of 0 the total interest is 0. *)
Definition zero_rate_interest_is_zero : Prop :=
  exists pw : float -> float -> float,
    forall P T : float,
      PrimFloat.ltb 0%float P = true -> PrimFloat.ltb 0%float T = true ->
      exists s : Double.Summary,
        Double.calculateMortgage pw P 0%float T = Some s
        /\ PrimFloat.eqb (Double.monthlyPayment s)
             (PrimFloat.div P (PrimFloat.mul T 12%float)) = true
        /\ PrimFloat.eqb (Double.totalInterest s) 0%float = true.




(** ** Real-number facts behind the annuity formula *)


Section Annuity.

(** A positive monthly rate and a positive number of payments, which need
    not be an integer. *)
Variables r n : R.
Hypothesis Hr : 0 < r.
Hypothesis Hn : 0 < n.

Lemma ln_one_plus_pos : 0 < ln (1 + r).
Proof.
  rewrite <- ln_1. apply ln_increasing; lra.
Qed.


Lemma growth_gt_1 : 1 < Rpower (1 + r) n.
Proof.
  unfold Rpower.
  assert (H : 0 < n * ln (1 + r)).
  { apply Rmult_lt_0_compat; [exact Hn | exact ln_one_plus_pos]. }
  apply exp_increasing in H. rewrite exp_0 in H. exact H.
Qed.


Lemma annuity_pos : 0 < annuity r n.
Proof.
  unfold annuity.
  pose proof growth_gt_1 as Hq.
  apply Rdiv_lt_0_compat; [| lra].
  apply Rmult_lt_0_compat; lra.
Qed.


End Annuity.

(** ** Evaluating [calculateMortgage] *)

Lemma div_real_division : real_division div.
Proof.
  intros x y Hy. unfold div.
  destruct (Req_dec_T y 0) as [E | _]; [contradiction | reflexivity].
Qed.

Lemma le_Num (x y : R) : le (Num x) (Num y) = true <-> x <= y.
Proof.
  unfold le. destruct (Rle_dec x y); split; intros; auto; discriminate.
Qed.

Lemma lt_Num (x y : R) : lt (Num x) (Num y) = true <-> x < y.
Proof.
  unfold lt. destruct (Rlt_dec x y); split; intros; auto; discriminate.
Qed.

Lemma strict_eq_Num (x y : R) : strict_eq (Num x) (Num y) = true <-> x = y.
Proof.
  unfold strict_eq. destruct (Req_dec_T x y); split; intros; auto;
    discriminate.
Qed.

Lemma strict_eq_Num_false (x y : R) :
  strict_eq (Num x) (Num y) = false <-> x <> y.
Proof.
  unfold strict_eq. destruct (Req_dec_T x y); split; intros; auto;
    try discriminate; contradiction.
Qed.

Lemma rejected_Num (P A T : R) :
  rejected (Num P) (Num A) (Num T) = true <-> P <= 0 \/ A < 0 \/ T <= 0.
Proof.
  unfold rejected, parseFloat.
  rewrite !orb_true_iff, !le_Num, lt_Num. tauto.
Qed.

Lemma accepted_Num (P A T : R) :
  0 < P -> 0 <= A -> 0 < T -> rejected (Num P) (Num A) (Num T) = false.
Proof.
  intros HP HA HT. apply not_true_is_false. rewrite rejected_Num. lra.
Qed.

Lemma body_rejected dv pw (p a y : number) :
  rejected p a y = true -> calculateMortgage_body dv pw p a y = None.
Proof.
  unfold calculateMortgage_body, rejected. intros ->. reflexivity.
Qed.

Lemma body_accepted dv pw (p a y : number) :
  rejected p a y = false -> calculateMortgage_body dv pw p a y <> None.
Proof.
  unfold calculateMortgage_body, rejected. intros ->. discriminate.
Qed.

(** A rate that is not negative and whose monthly rate is not zero gives a
    positive monthly rate. *)
Lemma monthly_rate_pos (A : R) :
  0 <= A -> A / 12 / 100 <> 0 -> 0 < A / 12 / 100.
Proof.
  intros [H | H] N; [lra | exfalso; apply N; subst A; field].
Qed.

Lemma Math_pow_growth (r n : R) :
  0 < r -> 0 < n ->
  Math_pow (add (Num 1) (Num r)) (Num n) = Num (Rpower (1 + r) n).
Proof.
  intros Hr Hn. unfold Math_pow, add.
  destruct (Req_dec_T n 0) as [E | _]; [lra |].
  destruct (Rlt_dec 0 (1 + r)) as [_ | N]; [reflexivity | lra].
Qed.

(** The straight-line path: the monthly rate is zero. *)
Lemma body_straight dv pw (P A T : R) :
  real_division dv -> 0 < P -> 0 <= A -> 0 < T -> A / 12 / 100 = 0 ->
  calculateMortgage_body dv pw (Num P) (Num A) (Num T)
  = Some (summary_of P (T * 12) (P / (T * 12))).
Proof.
  intros Hdv HP HA HT Hr.
  pose proof (accepted_Num P A T HP HA HT) as Hg.
  unfold rejected in Hg. unfold calculateMortgage_body. rewrite Hg.
  unfold parseFloat, mul.
  rewrite (Hdv A 12), (Hdv (A / 12) 100) by lra.
  assert (Hz : strict_eq (Num (A / 12 / 100)) (Num 0) = true)
    by now apply strict_eq_Num.
  rewrite Hz.
  assert (Hn : T * 12 <> 0) by lra.
  rewrite (Hdv P (T * 12) Hn).
  assert (Htp : P / (T * 12) * (T * 12) <> 0).
  { replace (P / (T * 12) * (T * 12)) with P by (field; lra). lra. }
  unfold sub. rewrite !Hdv by exact Htp. reflexivity.
Qed.

(** The annuity path: the monthly rate is not zero. *)
Lemma body_annuity dv (P A T : R) :
  real_division dv -> 0 < P -> 0 <= A -> 0 < T -> A / 12 / 100 <> 0 ->
  calculateMortgage_body dv Math_pow (Num P) (Num A) (Num T)
  = Some (summary_of P (T * 12) (P * annuity (A / 12 / 100) (T * 12))).
Proof.
  intros Hdv HP HA HT Hr.
  pose proof (accepted_Num P A T HP HA HT) as Hg.
  unfold rejected in Hg. unfold calculateMortgage_body. rewrite Hg.
  unfold parseFloat.
  rewrite (Hdv A 12), (Hdv (A / 12) 100) by lra.
  assert (Hz : strict_eq (Num (A / 12 / 100)) (Num 0) = false)
    by now apply strict_eq_Num_false.
  rewrite Hz.
  pose proof (monthly_rate_pos A HA Hr) as Hr0.
  set (r := A / 12 / 100) in *.
  assert (Hn : 0 < T * 12) by lra.
  change (mul (Num T) (Num 12)) with (Num (T * 12)).
  rewrite (Math_pow_growth r (T * 12) Hr0 Hn).
  pose proof (growth_gt_1 r (T * 12) Hr0 Hn) as Hq.
  unfold mul, sub.
  rewrite (Hdv (r * Rpower (1 + r) (T * 12)) (Rpower (1 + r) (T * 12) - 1))
    by lra.
  fold (annuity r (T * 12)).
  pose proof (annuity_pos r (T * 12) Hr0 Hn) as Ha.
  assert (Htp : P * annuity r (T * 12) * (T * 12) <> 0).
  { apply Rgt_not_eq, Rlt_gt.
    apply Rmult_lt_0_compat; [apply Rmult_lt_0_compat |]; assumption. }
  rewrite !Hdv by exact Htp. reflexivity.
Qed.

Lemma calculateMortgage_straight (P A T : R) :
  0 < P -> 0 <= A -> 0 < T -> A / 12 / 100 = 0 ->
  calculateMortgage (Num P) (Num A) (Num T)
  = Some (summary_of P (T * 12) (P / (T * 12))).
Proof. apply body_straight, div_real_division. Qed.

Lemma calculateMortgage_annuity (P A T : R) :
  0 < P -> 0 <= A -> 0 < T -> A / 12 / 100 <> 0 ->
  calculateMortgage (Num P) (Num A) (Num T)
  = Some (summary_of P (T * 12) (P * annuity (A / 12 / 100) (T * 12))).
Proof. apply body_annuity, div_real_division. Qed.

(** On real arguments a summary is returned exactly for the valid ones. *)
Lemma calculateMortgage_Some_valid (P A T : R) (s : Summary) :
  calculateMortgage (Num P) (Num A) (Num T) = Some s ->
  0 < P /\ 0 <= A /\ 0 < T.
Proof.
  intros H.
  destruct (rejected (Num P) (Num A) (Num T)) eqn:E.
  - unfold calculateMortgage in H.
    rewrite (body_rejected _ _ _ _ _ E) in H. discriminate.
  - assert (N : ~ (P <= 0 \/ A < 0 \/ T <= 0)).
    { rewrite <- rejected_Num, E. discriminate. }
    lra.
Qed.


(** ** Adequacy of the number model *)

Lemma pos_or_nan_neq_0 (v : number) : pos_or_nan v -> v <> Num 0.
Proof.
  intros [-> | (x & -> & Hx)]; [discriminate |].
  intros E. injection E as E. lra.
Qed.

Lemma le_false_pos (v : number) : le v (Num 0) = false -> pos_or_nan v.
Proof.
  destruct v as [x |]; [| now left]. intros H. right. exists x.
  split; [reflexivity |].
  destruct (Rle_or_lt x 0) as [L | L]; [| exact L].
  apply le_Num in L. congruence.
Qed.

Lemma mul_pos_or_nan (u v : number) :
  pos_or_nan u -> pos_or_nan v -> pos_or_nan (mul u v).
Proof.
  intros [-> | (x & -> & Hx)] [-> | (y & -> & Hy)]; try (now left).
  right. exists (x * y). split; [reflexivity |].
  now apply Rmult_lt_0_compat.
Qed.

Lemma div_pos_or_nan (u v : number) :
  pos_or_nan u -> pos_or_nan v -> pos_or_nan (div u v).
Proof.
  intros [-> | (x & -> & Hx)] [-> | (y & -> & Hy)]; try (now left).
  right. exists (x / y). rewrite div_real_division by lra.
  split; [reflexivity |]. now apply Rdiv_lt_0_compat.
Qed.

(** The growth factor less one, for a monthly rate that is positive or
    [NaN] and a number of payments that is positive or [NaN]. *)
Lemma denominator_pos_or_nan (r n : number) :
  pos_or_nan r -> pos_or_nan n ->
  pos_or_nan (sub (Math_pow (add (Num 1) r) n) (Num 1)).
Proof.
  intros [-> | (x & -> & Hx)] [-> | (y & -> & Hy)]; try (now left).
  - left. unfold Math_pow, add.
    destruct (Req_dec_T y 0); [lra | reflexivity].
  - right. rewrite (Math_pow_growth x y Hx Hy).
    eexists. split; [reflexivity |].
    pose proof (growth_gt_1 x y Hx Hy). lra.
Qed.

Lemma numerator_pos_or_nan (r n : number) :
  pos_or_nan r -> pos_or_nan n ->
  pos_or_nan (mul r (Math_pow (add (Num 1) r) n)).
Proof.
  intros [-> | (x & -> & Hx)] [-> | (y & -> & Hy)]; try (now left).
  right. rewrite (Math_pow_growth x y Hx Hy).
  eexists. split; [reflexivity |].
  pose proof (growth_gt_1 x y Hx Hy). apply Rmult_lt_0_compat; lra.
Qed.

(** The result of [calculateMortgage] does not depend on what a division by
    a real zero gives, nor on the power of a base that is not positive:
    no accepted run gets there, whether its arguments are real or [NaN]. *)
Lemma model_adequate dv pw (p a y : number) :
  same_off_zero_divisor dv -> same_on_positive_base pw ->
  calculateMortgage_body dv pw p a y = calculateMortgage p a y.
Proof.
  intros Hdv Hpw.
  unfold calculateMortgage, calculateMortgage_body, parseFloat.
  destruct (le p (Num 0)) eqn:Gp; [reflexivity |].
  destruct (lt a (Num 0)) eqn:Ga; [reflexivity |].
  destruct (le y (Num 0)) eqn:Gy; [reflexivity |].
  cbn [orb].
  apply le_false_pos in Gp, Gy.
  rewrite !(Hdv _ (Num 12)), !(Hdv _ (Num 100))
    by (intros E; injection E as E; lra).
  set (r := div (div a (Num 12)) (Num 100)).
  set (n := mul y (Num 12)).
  assert (Hn : pos_or_nan n).
  { apply mul_pos_or_nan; [exact Gy |]. right. exists 12. split; [easy | lra]. }
  assert (Hr : strict_eq r (Num 0) = false -> pos_or_nan r).
  { unfold r. destruct a as [A |]; [| now left]. intros Hz. right.
    rewrite !div_real_division in * by lra.
    eexists. split; [reflexivity |].
    apply strict_eq_Num_false in Hz.
    assert (0 <= A); [| lra].
    destruct (Rle_or_lt 0 A) as [L | L]; [exact L |].
    apply lt_Num in L. congruence. }
  rewrite (Hdv p n (pos_or_nan_neq_0 _ Hn)).
  destruct (strict_eq r (Num 0)) eqn:Hz.
  - pose proof (mul_pos_or_nan _ _ (div_pos_or_nan _ _ Gp Hn) Hn) as Htp.
    rewrite !(Hdv _ _ (pos_or_nan_neq_0 _ Htp)). reflexivity.
  - specialize (Hr eq_refl).
    assert (Hb : add (Num 1) r = NaN
                 \/ exists x : R, add (Num 1) r = Num x /\ 0 < x).
    { destruct Hr as [-> | (x & -> & Hx)]; [now left |].
      right. exists (1 + x). split; [reflexivity | lra]. }
    rewrite !(Hpw _ n Hb).
    pose proof (denominator_pos_or_nan r n Hr Hn) as Hden.
    pose proof (numerator_pos_or_nan r n Hr Hn) as Hnum.
    rewrite (Hdv _ _ (pos_or_nan_neq_0 _ Hden)).
    pose proof (mul_pos_or_nan _ _
                  (mul_pos_or_nan _ _ Gp (div_pos_or_nan _ _ Hnum Hden)) Hn)
      as Htp.
    rewrite !(Hdv _ _ (pos_or_nan_neq_0 _ Htp)). reflexivity.
Qed.

(** The statement-by-statement run computes [calculateMortgage] and
    hands the world back untouched. *)
Lemma calculateMortgage_run_pure (p a y : number) (w : World) :
  calculateMortgage_run p a y w = (calculateMortgage p a y, w).
Proof.
  unfold calculateMortgage_run, calculateMortgage, calculateMortgage_body,
    bind, ret.
  destruct (le (parseFloat p) (Num 0) || lt a (Num 0) || le y (Num 0));
    [reflexivity |].
  destruct (strict_eq (div (div (parseFloat a) (Num 12)) (Num 100)) (Num 0));
    reflexivity.
Qed.

(** ** Facts about doubles *)

Section DoubleFacts.

Local Open Scope float_scope.

(** A double above 0 is a positive finite number or [+Infinity]. *)
Lemma positive_SF (x : float) :
  (0 <? x) = true ->
  Prim2SF x = S754_infinity false
  \/ exists m e, Prim2SF x = S754_finite false m e.
Proof.
  rewrite ltb_spec. change (Prim2SF 0) with (S754_zero false).
  destruct (Prim2SF x) as [s | s | | s m e]; try destruct s; cbn;
    try discriminate; eauto.
Qed.

Lemma positive_not_le_0 (x : float) : (0 <? x) = true -> (x <=? 0) = false.
Proof.
  intros H. rewrite leb_spec. change (Prim2SF 0) with (S754_zero false).
  destruct (positive_SF x H) as [-> | (m & e & ->)]; reflexivity.
Qed.

Lemma positive_not_eq_0 (x : float) : (0 <? x) = true -> (x =? 0) = false.
Proof.
  intros H. rewrite eqb_spec. change (Prim2SF 0) with (S754_zero false).
  destruct (positive_SF x H) as [-> | (m & e & ->)]; reflexivity.
Qed.

Lemma nonnegative_not_lt_0 (x : float) : (0 <=? x) = true -> (x <? 0) = false.
Proof.
  rewrite leb_spec, ltb_spec. change (Prim2SF 0) with (S754_zero false).
  destruct (Prim2SF x) as [s | s | | s m e]; try destruct s; cbn;
    congruence.
Qed.

Lemma parseFloat_positive (x : float) :
  (0 <? x) = true -> Double.parseFloat x = x.
Proof.
  intros H. unfold Double.parseFloat. now rewrite positive_not_eq_0.
Qed.

(** A valid loan passes the guard of line 31. *)
Lemma valid_accepted (P A T : float) :
  Double.valid P A T -> Double.rejected P A T = false.
Proof.
  intros (HP & HR & HT). unfold Double.rejected.
  rewrite (parseFloat_positive P HP), (positive_not_le_0 P HP),
    (nonnegative_not_lt_0 A HR), (positive_not_le_0 T HT).
  reflexivity.
Qed.






(** What the code returns for a rate so small that [1 + r] rounds to 1,
    whenever [Math.pow] gives 1 for a base of 1. *)
Lemma tiny_rate_run (pw : float -> float -> float) :
  pw 1 120 = 1 ->
  Double.calculateMortgage pw 1000 1e-13 10
  = Some (Double.mkSummary infinity infinity infinity 1000 nan 0).
Proof.
  intros H. unfold Double.calculateMortgage, Double.numerator,
    Double.denominator.
  vm_compute. rewrite H. vm_compute. reflexivity.
Qed.

End DoubleFacts.

Section DoubleRuns.

Local Open Scope float_scope.

Lemma rate_0 : Double.rate 0 = 0.
Proof. reflexivity. Qed.

(** The straight-line path on doubles: a valid loan at a rate of exactly 0
    never reaches [Math.pow]. *)
Lemma zero_rate_run (pw : float -> float -> float) (P T : float) :
  (0 <? P) = true -> (0 <? T) = true ->
  Double.calculateMortgage pw P 0 T
  = Some (Double.summary_of P (T * 12) (P / (T * 12))).
Proof.
  intros HP HT.
  assert (Hv : Double.valid P 0 T) by (repeat split; assumption).
  apply valid_accepted in Hv. unfold Double.rejected in Hv.
  unfold Double.calculateMortgage. rewrite Hv, rate_0.
  change (0 =? 0) with true. cbv iota.
  unfold Double.payments.
  rewrite (parseFloat_positive P HP), (parseFloat_positive T HT).
  reflexivity.
Qed.


Lemma run_500000_0_10 (pw : float -> float -> float) :
  Double.calculateMortgage pw 500000 0 10
  = Some (Double.mkSummary 4166.666666666667 500000.00000000006
            5.820766091346741e-11 500000 1.164153218269348e-14
            99.99999999999999).
Proof. vm_compute. reflexivity. Qed.



Lemma run_tiny_principal (pw : float -> float -> float) :
  Double.calculateMortgage pw 5e-324 0 1
  = Some (Double.mkSummary 0 0 (-5e-324) 5e-324 neg_infinity infinity).
Proof. vm_compute. reflexivity. Qed.




End DoubleRuns.

(** A [NaN] principal (the run of the first case of C3). *)
Lemma nan_principal_run :
  calculateMortgage NaN (Num 5) (Num 10)
  = Some (mkSummary NaN NaN NaN NaN NaN NaN).
Proof.
  assert (Hle : le (Num 10) (Num 0) = false).
  { apply not_true_is_false. rewrite le_Num. lra. }
  assert (Hlt : lt (Num 5) (Num 0) = false).
  { apply not_true_is_false. rewrite lt_Num. lra. }
  unfold calculateMortgage, calculateMortgage_body, parseFloat.
  rewrite Hle, Hlt. cbn [le orb].
  destruct (strict_eq _ _); reflexivity.
Qed.

(** ** The claims *)




(** C2.  On real arguments [calculateMortgage] returns [null] exactly when
    the principal is at most 0, or the annual rate is below 0, or the term
    is at most 0.  A zero annual rate is accepted; a principal of 0 or -100,
    a rate of -1, a term of 0 or -5 each give [null], whatever the other
    arguments. *)
Theorem C2_invalid_iff :
  (forall P A T : R,
      calculateMortgage (Num P) (Num A) (Num T) = None
      <-> P <= 0 \/ A < 0 \/ T <= 0)
  /\ (forall P T : R,
         0 < P -> 0 < T ->
         calculateMortgage (Num P) (Num 0) (Num T) <> None)
  /\ (forall a y : number, calculateMortgage (Num 0) a y = None)
  /\ (forall a y : number, calculateMortgage (Num (-100)) a y = None)
  /\ (forall p y : number, calculateMortgage p (Num (-1)) y = None)
  /\ (forall p a : number, calculateMortgage p a (Num 0) = None)
  /\ (forall p a : number, calculateMortgage p a (Num (-5)) = None).
Proof.
  assert (Hle : forall x : R, x <= 0 -> le (Num x) (Num 0) = true)
    by (intros; now apply le_Num).
  assert (Hlt : forall x : R, x < 0 -> lt (Num x) (Num 0) = true)
    by (intros; now apply lt_Num).
  repeat split.
  - intros H. apply rejected_Num.
    destruct (rejected (Num P) (Num A) (Num T)) eqn:E; [reflexivity |].
    exfalso. revert H. now apply body_accepted.
  - intros H. apply body_rejected. now apply rejected_Num.
  - intros P T HP HT. apply body_accepted, accepted_Num; lra.
  - intros a y. apply body_rejected. unfold rejected, parseFloat.
    rewrite Hle by lra. reflexivity.
  - intros a y. apply body_rejected. unfold rejected, parseFloat.
    rewrite Hle by lra. reflexivity.
  - intros p y. apply body_rejected. unfold rejected.
    rewrite Hlt by lra. now rewrite orb_true_r.
  - intros p a. apply body_rejected. unfold rejected.
    rewrite (Hle 0) by lra. now rewrite orb_true_r.
  - intros p a. apply body_rejected. unfold rejected.
    rewrite (Hle (-5)) by lra. now rewrite orb_true_r.
Qed.

(** C3.  What the code does on an argument that is [NaN], where the
    specification asks for [null]: the guard of line 31 is false on [NaN],
    and a summary of [NaN] fields is returned.  Shown for a [NaN] principal,
    a [NaN] rate and a [NaN] term. *)
Theorem C3_nan_argument_accepted :
  calculateMortgage NaN (Num 5) (Num 10)
  = Some (mkSummary NaN NaN NaN NaN NaN NaN)
  /\ calculateMortgage (Num 1000) NaN (Num 10)
     = Some (mkSummary NaN NaN NaN (Num 1000) NaN NaN)
  /\ calculateMortgage (Num 1000) (Num 5) NaN
     = Some (mkSummary NaN NaN NaN (Num 1000) NaN NaN).
Proof.
  assert (Hle : forall x : R, 0 < x -> le (Num x) (Num 0) = false).
  { intros x Hx. apply not_true_is_false. rewrite le_Num. lra. }
  assert (Hlt : forall x : R, 0 <= x -> lt (Num x) (Num 0) = false).
  { intros x Hx. apply not_true_is_false. rewrite lt_Num. lra. }
  unfold calculateMortgage, calculateMortgage_body, parseFloat.
  repeat split.
  - rewrite Hlt, Hle by lra. simpl orb. cbv iota.
    rewrite !div_real_division by lra.
    assert (Hz : strict_eq (Num (5 / 12 / 100)) (Num 0) = false)
      by (apply strict_eq_Num_false; lra).
    rewrite Hz. reflexivity.
  - rewrite !Hle by lra. reflexivity.
  - rewrite !Hle, Hlt by lra. simpl orb. cbv iota.
    rewrite !div_real_division by lra.
    assert (Hz : strict_eq (Num (5 / 12 / 100)) (Num 0) = false)
      by (apply strict_eq_Num_false; lra).
    rewrite Hz. reflexivity.
Qed.

(** C4.  What the code does where the specification asks for percentages
    that add up to 100 in every summary: the summary returned for a [NaN]
    principal has [NaN] percentages, whose sum is [NaN]; and on doubles the
    summary returned for the valid loan of 1000 for 10 years at 1e-13
    percent has a [NaN] interest percentage, whenever [Math.pow] gives 1
    for a base of 1.  The other parts of the invariant hold of every
    summary the code returns on doubles: the total payment is the monthly
    payment times the number of payments, the total interest is the total
    payment less the principal, and the principal amount is the argument
    unchanged. *)
Theorem C4_percentages_not_100 :
  (exists s : Summary,
      calculateMortgage NaN (Num 5) (Num 10) = Some s
      /\ add (interestPercentage s) (principalPercentage s) = NaN
      /\ strict_eq (add (interestPercentage s) (principalPercentage s))
           (Num 100) = false)
  /\ (forall pw : float -> float -> float,
         pw 1%float 120%float = 1%float ->
         Double.valid 1000 1e-13 10
         /\ exists s : Double.Summary,
              Double.calculateMortgage pw 1000 1e-13 10 = Some s
              /\ (Double.interestPercentage s + Double.principalPercentage s
                  = nan)%float)
  /\ forall (pw : float -> float -> float) (p a y : float)
        (s : Double.Summary),
       Double.calculateMortgage pw p a y = Some s ->
       (Double.totalPayment s
        = Double.monthlyPayment s * Double.payments y)%float
       /\ (Double.totalInterest s = Double.totalPayment s - p)%float
       /\ Double.principalAmount s = p.
Proof.
  split; [| split].
  - eexists. split; [exact nan_principal_run |]. split; reflexivity.
  - intros pw Hpw. split; [repeat split; reflexivity |].
    eexists. split; [exact (tiny_rate_run pw Hpw) | reflexivity].
  - intros pw p a y s H.
    unfold Double.calculateMortgage, Double.parseFloat in H.
    destruct (PrimFloat.eqb p 0%float) eqn:E; [discriminate H |].
    destruct (_ || _ || _); [discriminate H |].
    injection H as <-. repeat split.
Qed.

(** C5.  For a valid loan at an annual rate of 0 the monthly rate is 0, the
    test of line 37 holds and the straight-line path is taken, whatever
    [Math.pow] is: the monthly payment is the double [P / (T * 12)] and
    the total interest is the double [P / (T * 12) * (T * 12) - P].  In
    exact real arithmetic the total interest is 0; on doubles it is 0 up
    to rounding: 500,000 over 10 years gives 5.820766091346741e-11. *)
Theorem C5_zero_rate :
  (forall (pw : float -> float -> float) (P T : float),
      PrimFloat.ltb 0%float P = true -> PrimFloat.ltb 0%float T = true ->
      PrimFloat.eqb (Double.rate 0) 0%float = true
      /\ Double.calculateMortgage pw P 0 T
         = Some (Double.summary_of P (T * 12) (P / (T * 12)))%float)
  /\ (forall P T : R,
         0 < P -> 0 < T ->
         strict_eq (div (div (parseFloat (Num 0)) (Num 12)) (Num 100)) (Num 0)
         = true
         /\ (forall pw : number -> number -> number,
                calculateMortgage_body div pw (Num P) (Num 0) (Num T)
                = calculateMortgage (Num P) (Num 0) (Num T))
         /\ exists s : Summary,
              calculateMortgage (Num P) (Num 0) (Num T) = Some s
              /\ monthlyPayment s = Num (P / (T * 12))
              /\ totalInterest s = Num 0)
  /\ forall pw : float -> float -> float,
       Double.calculateMortgage pw 500000 0 10
       = Some (Double.mkSummary 4166.666666666667 500000.00000000006
                 5.820766091346741e-11 500000 1.164153218269348e-14
                 99.99999999999999).
Proof.
  split; [| split].
  - intros pw P T HP HT. split; [reflexivity | now apply zero_rate_run].
  - intros P T HP HT.
    assert (Hr : 0 / 12 / 100 = 0) by lra.
    split; [| split].
    + unfold parseFloat. rewrite !div_real_division by lra.
      now apply strict_eq_Num.
    + intros pw. unfold calculateMortgage.
      rewrite !(body_straight div _ P 0 T div_real_division) by lra.
      reflexivity.
    + eexists. split; [apply calculateMortgage_straight; lra |].
      split; [reflexivity |]. simpl. f_equal. field. lra.
  - exact run_500000_0_10.
Qed.

(** 500,000 over ten years at no interest. *)
Lemma C5_zero_rate_witness :
  (PrimFloat.eqb (Double.rate 0) 0%float = true
   /\ Double.calculateMortgage (fun b _ => b) 500000 0 10
      = Some (Double.summary_of 500000 (10 * 12) (500000 / (10 * 12)))%float)
  /\ exists s : Summary,
       calculateMortgage (Num 500000) (Num 0) (Num 10) = Some s
       /\ monthlyPayment s = Num (500000 / (10 * 12))
       /\ totalInterest s = Num 0.
Proof.
  split.
  - apply (proj1 C5_zero_rate (fun b _ => b) 500000%float 10%float);
      reflexivity.
  - apply (proj1 (proj2 C5_zero_rate) 500000 10); lra.
Defined.

(** C5, with a total interest of exactly 0: on doubles 500,000 over 10
    years at a rate of 0 gives a total interest of 5.820766091346741e-11,
    because 500000 / 120 * 120 rounds to 500000.00000000006. *)
Lemma C5_interest_not_zero : ~ zero_rate_interest_is_zero.
Proof.
  intros (pw & H).
  destruct (H 500000%float 10%float eq_refl eq_refl) as (s & E & _ & Hti).
  rewrite run_500000_0_10 in E. injection E as <-.
  vm_compute in Hti. discriminate Hti.
Qed.




(** ** The scenario of the specification: 1,000,000 at 8 percent, 20 years *)

(** With an integer number of payments the growth factor is a rational. *)
Lemma growth_240 :
  Rpower (1 + 8 / 12 / 100) (20 * 12)
  = IZR (151 ^ 240) / IZR (150 ^ 240).
Proof.
  replace (1 + 8 / 12 / 100) with (151 * / 150) by lra.
  replace (20 * 12) with (INR 240) by (rewrite INR_IZR_INZ; simpl; lra).
  rewrite Rpower_pow by lra.
  rewrite Rpow_mult_distr, pow_inv, !pow_IZR.
  change (Z.of_nat 240) with 240%Z. reflexivity.
Qed.

Lemma annuity_ratio (r n : R) (a b : Z) :
  (0 < b < a)%Z ->
  Rpower (1 + r) n = IZR a / IZR b ->
  annuity r n = r * (IZR a / IZR (a - b)).
Proof.
  intros [Hb Hab] Hq. unfold annuity. rewrite Hq, minus_IZR.
  apply IZR_lt in Hb, Hab. field. lra.
Qed.

Lemma scenario_integers :
  (0 < 150 ^ 240 < 151 ^ 240)%Z
  /\ (25093202067 * (151 ^ 240 - 150 ^ 240) < 20000000000 * 151 ^ 240)%Z
  /\ (20000000000 * 151 ^ 240 < 25093202070 * (151 ^ 240 - 150 ^ 240))%Z.
Proof.
  repeat split; apply Z.ltb_lt; vm_compute; reflexivity.
Qed.

(** The monthly payment of the scenario, to six decimal places. *)
Lemma scenario_monthly_bounds :
  8364.400689 < 1000000 * annuity (8 / 12 / 100) (20 * 12) < 8364.40069.
Proof.
  destruct scenario_integers as (Hab & Hlo & Hhi).
  rewrite (annuity_ratio _ _ _ _ Hab growth_240).
  set (a := (151 ^ 240)%Z) in *. set (b := (150 ^ 240)%Z) in *.
  assert (Hd : 0 < IZR (a - b)) by (apply IZR_lt; lia).
  apply IZR_lt in Hlo, Hhi. rewrite !mult_IZR in Hlo, Hhi.
  set (d := IZR (a - b)) in *.
  set (x := IZR a / d).
  assert (Hx : IZR a = x * d) by (unfold x; field; lra).
  rewrite Hx in Hlo, Hhi.
  assert (H1 : 25093202067 < 20000000000 * x).
  { apply Rmult_lt_reg_r with d; [exact Hd |]. lra. }
  assert (H2 : 20000000000 * x < 25093202070).
  { apply Rmult_lt_reg_r with d; [exact Hd |]. lra. }
  lra.
Qed.

Lemma scenario_summary :
  calculateMortgage (Num 1000000) (Num 8) (Num 20)
  = Some (summary_of 1000000 (20 * 12)
            (1000000 * annuity (8 / 12 / 100) (20 * 12))).
Proof. apply calculateMortgage_annuity; lra. Qed.

Lemma near_Num (tol x v : R) : Rabs (x - v) < tol -> near tol (Num x) v.
Proof. intros H. exists x. split; [reflexivity | exact H]. Qed.

Lemma near_Num_inv (tol x v : R) : near tol (Num x) v -> Rabs (x - v) < tol.
Proof. intros (y & E & H). injection E as ->. exact H. Qed.

(** C7, with the figures the formula gives.  For a principal of 1,000,000
    at 8 percent a year over 20 years [calculateMortgage] returns a summary
    whose values agree with the annuity formula at [r = 0.08 / 12] and
    [n = 240]: in whole units the monthly payment is 8,364, the total
    payment 2,007,456 and the total interest 1,007,456; to two decimal
    places they are 8,364.40, 2,007,456.17 and 1,007,456.17. *)
Theorem C7_scenario_values :
  exists s : Summary,
    calculateMortgage (Num 1000000) (Num 8) (Num 20) = Some s
    /\ monthlyPayment s
       = Num (1000000 * (0.08 / 12 * Rpower (1 + 0.08 / 12) 240)
              / (Rpower (1 + 0.08 / 12) 240 - 1))
    /\ near 1 (monthlyPayment s) 8364
    /\ near 1 (totalPayment s) 2007456
    /\ near 1 (totalInterest s) 1007456
    /\ near 0.005 (monthlyPayment s) 8364.40
    /\ near 0.005 (totalPayment s) 2007456.17
    /\ near 0.005 (totalInterest s) 1007456.17.
Proof.
  pose proof scenario_monthly_bounds as Hm.
  eexists. split; [exact scenario_summary |].
  unfold summary_of; cbn [monthlyPayment totalPayment totalInterest].
  set (m := 1000000 * annuity (8 / 12 / 100) (20 * 12)) in *.
  split; [| repeat split; apply near_Num, Rabs_def1; lra].
  f_equal. unfold m, annuity.
  replace (8 / 12 / 100) with (0.08 / 12) by lra.
  replace (20 * 12) with 240 by lra.
  assert (Hq : 1 < Rpower (1 + 0.08 / 12) 240)
    by (apply growth_gt_1; lra).
  field. lra.
Qed.

(** C7, as the specification quotes it: the total payment is more than ten
    units below the quoted 2,007,467. *)
Lemma C7_quoted_total_off : ~ scenario_as_specified.
Proof.
  intros (s & E & _ & Htp & _).
  rewrite scenario_summary in E. injection E as <-.
  apply near_Num_inv in Htp.
  pose proof scenario_monthly_bounds as Hm.
  apply Rabs_def2 in Htp. lra.
Qed.

(** C8.  [calculateMortgage] is a function of its three arguments alone:
    run in any two worlds (application state and storage) it returns the
    same result and leaves the world as it was, also after any sequence of
    operations of the application shell has changed the state between the
    two calls. *)
Theorem C8_deterministic_and_pure
  (p a y : number) (w1 w2 : World) (l : list action) :
  fst (calculateMortgage_run p a y w1) = fst (calculateMortgage_run p a y w2)
  /\ snd (calculateMortgage_run p a y w1) = w1
  /\ fst (calculateMortgage_run p a y
            (perform_all l (snd (calculateMortgage_run p a y w1))))
     = fst (calculateMortgage_run p a y w1)
  /\ fst (calculateMortgage_run p a y w1) = calculateMortgage p a y.
Proof.
  rewrite !calculateMortgage_run_pure. cbn [fst snd]. repeat split.
Qed.

(** C9.  What the code does where no division by zero should be reachable
    for a valid loan.  At 1000 borrowed for 10 years at 1e-13 percent the
    monthly rate is not 0, so the test of line 37 fails, but [1 + r]
    rounds to 1: whenever [Math.pow] gives 1 for a base of 1 the
    denominator of line 42 is 0, line 43 divides by it and the summary
    holds [Infinity] and [NaN].  At a principal so small that the monthly
    payment underflows to 0 (5e-324 over one year at a rate of 0) the
    total payment is 0 and lines 55 and 56 divide by it, whatever
    [Math.pow] is. *)
Theorem C9_zero_divisor_reached (pw : float -> float -> float) :
  (Double.valid 1000 1e-13 10
   /\ (pw 1%float 120%float = 1%float ->
       PrimFloat.eqb (Double.rate 1e-13) 0%float = false
       /\ PrimFloat.eqb
            (Double.denominator pw (Double.rate 1e-13) (Double.payments 10))
            0%float = true
       /\ Double.calculateMortgage pw 1000 1e-13 10
          = Some (Double.mkSummary infinity infinity infinity 1000 nan 0)))
  /\ Double.valid 5e-324 0 1
  /\ Double.calculateMortgage pw 5e-324 0 1
     = Some (Double.mkSummary 0 0 (-5e-324) 5e-324 neg_infinity infinity).
Proof.
  split; [split |].
  - repeat split; reflexivity.
  - intros Hpw. split; [reflexivity |]. split.
    + unfold Double.denominator. vm_compute. rewrite Hpw. reflexivity.
    + exact (tiny_rate_run pw Hpw).
  - split; [repeat split; reflexivity | exact (run_tiny_principal pw)].
Qed.




(** ** Further properties of [calculateMortgage]: rejection and [NaN] *)

Lemma le_0_true_inv (v : number) :
  le v (Num 0) = true <-> exists x : R, v = Num x /\ x <= 0.
Proof.
  destruct v as [x |].
  - split.
    + intros H. exists x. split; [reflexivity | now apply le_Num].
    + intros (x' & E & H). injection E as ->. now apply le_Num.
  - cbn. split; [discriminate | intros (x & E & _); discriminate].
Qed.

Lemma lt_0_true_inv (v : number) :
  lt v (Num 0) = true <-> exists x : R, v = Num x /\ x < 0.
Proof.
  destruct v as [x |].
  - split.
    + intros H. exists x. split; [reflexivity | now apply lt_Num].
    + intros (x' & E & H). injection E as ->. now apply lt_Num.
  - cbn. split; [discriminate | intros (x & E & _); discriminate].
Qed.

(** X1.  Over all numbers, [NaN] included, [calculateMortgage] returns
    [null] exactly when the principal is a real number at most 0, or the
    rate a real number below 0, or the term a real number at most 0: a
    [NaN] argument is never a reason to reject. *)
Theorem rejection_characterised (p a y : number) :
  calculateMortgage p a y = None
  <-> (exists P : R, p = Num P /\ P <= 0)
      \/ (exists A : R, a = Num A /\ A < 0)
      \/ (exists T : R, y = Num T /\ T <= 0).
Proof.
  rewrite <- !le_0_true_inv, <- lt_0_true_inv, <- !orb_true_iff, orb_assoc.
  change (le p (Num 0) || lt a (Num 0) || le y (Num 0))
    with (rejected p a y).
  unfold calculateMortgage. split.
  - intros H. destruct (rejected p a y) eqn:E; [reflexivity |].
    exfalso. revert H. now apply body_accepted.
  - apply body_rejected.
Qed.

(** X2.  A [NaN] argument that gets past the guard spoils every computed
    field: the monthly payment, the total payment, the total interest and
    the two percentages of the summary are all [NaN]; the principal amount
    is the argument as given. *)
Theorem nan_argument_spoils_summary (p a y : number) (s : Summary) :
  calculateMortgage p a y = Some s ->
  p = NaN \/ a = NaN \/ y = NaN ->
  monthlyPayment s = NaN
  /\ totalPayment s = NaN
  /\ totalInterest s = NaN
  /\ interestPercentage s = NaN
  /\ principalPercentage s = NaN
  /\ principalAmount s = p.
Proof.
  intros H Hnan.
  unfold calculateMortgage, calculateMortgage_body, parseFloat in H.
  destruct (le p (Num 0) || lt a (Num 0) || le y (Num 0)); [discriminate |].
  set (r := div (div a (Num 12)) (Num 100)) in H.
  set (m := if strict_eq r (Num 0) then div p (mul y (Num 12))
            else mul p (div (mul r (Math_pow (add (Num 1) r)
                                             (mul y (Num 12))))
                            (sub (Math_pow (add (Num 1) r)
                                           (mul y (Num 12))) (Num 1))))
    in H.
  assert (Hm : m = NaN).
  { unfold m. destruct Hnan as [-> | [-> | ->]].
    - destruct (strict_eq r (Num 0)); reflexivity.
    - subst r. cbn. destruct p; reflexivity.
    - cbn [mul]. destruct (strict_eq r (Num 0)).
      + destruct p; reflexivity.
      + cbn [Math_pow]. destruct r, p; reflexivity. }
  injection H as <-. cbn [monthlyPayment totalPayment totalInterest
    interestPercentage principalPercentage principalAmount].
  rewrite Hm. repeat split; try reflexivity.
  clear. destruct p; reflexivity.
Qed.

(** A [NaN] principal with a real rate and term. *)
Lemma nan_argument_spoils_summary_witness :
  monthlyPayment (mkSummary NaN NaN NaN NaN NaN NaN) = NaN
  /\ totalPayment (mkSummary NaN NaN NaN NaN NaN NaN) = NaN
  /\ totalInterest (mkSummary NaN NaN NaN NaN NaN NaN) = NaN
  /\ interestPercentage (mkSummary NaN NaN NaN NaN NaN NaN) = NaN
  /\ principalPercentage (mkSummary NaN NaN NaN NaN NaN NaN) = NaN
  /\ principalAmount (mkSummary NaN NaN NaN NaN NaN NaN) = NaN.
Proof.
  apply (nan_argument_spoils_summary NaN (Num 5) (Num 10)).
  - assert (Hle : le (Num 10) (Num 0) = false).
    { apply not_true_is_false. rewrite le_Num. lra. }
    assert (Hlt : lt (Num 5) (Num 0) = false).
    { apply not_true_is_false. rewrite lt_Num. lra. }
    unfold calculateMortgage, calculateMortgage_body, parseFloat.
    rewrite Hle, Hlt. cbn [le orb].
    destruct (strict_eq _ _); reflexivity.
  - left. reflexivity.
Defined.

(** ** Properties of the storage, the theme and the reset *)

Lemma or_default_empty (s : string) : or_default s EmptyString = s.
Proof.
  unfold or_default. destruct (String.eqb_spec s EmptyString) as [-> | _];
    reflexivity.
Qed.

Lemma or_default_named (s d : string) :
  s <> EmptyString -> or_default s d = s.
Proof.
  intros H. unfold or_default.
  destruct (String.eqb_spec s EmptyString) as [E | _];
    [contradiction | reflexivity].
Qed.

Lemma saved_is_snapshot (w : World) :
  snd (saveToStorage w)
  = {| state := state w; mortgageData := Some (snapshot (state w)) |}.
Proof. reflexivity. Qed.

(** Loading a copy of a state whose loan type and theme are not empty
    gives that state back. *)
Lemma load_snapshot (s : State) :
  named s ->
  loadFromStorage {| state := s; mortgageData := Some (snapshot s) |}
  = (true, {| state := s; mortgageData := Some (snapshot s) |}).
Proof.
  intros [Hty Hth]. unfold loadFromStorage. cbn.
  rewrite !or_default_empty, !or_default_named by assumption.
  destruct s; reflexivity.
Qed.

(** X8.  Saving and then loading: [loadFromStorage] right after
    [saveToStorage] reports success, leaves the stored copy and the results
    alone, and restores the three input texts as they were; the loan type
    and the theme come back as they were unless they are the empty text,
    which is replaced by ["fixed"] and ["light"].  So when neither is
    empty the round trip changes nothing. *)
Theorem save_then_load (w : World) :
  let w1 := snd (saveToStorage w) in
  let w2 := snd (loadFromStorage w1) in
  fst (loadFromStorage w1) = true
  /\ mortgageData w2 = Some (snapshot (state w))
  /\ principal (state w2) = principal (state w)
  /\ interestRate (state w2) = interestRate (state w)
  /\ loanTerm (state w2) = loanTerm (state w)
  /\ mortgageType (state w2) = or_default (mortgageType (state w)) "fixed"
  /\ theme (state w2) = or_default (theme (state w)) "light"
  /\ results (state w2) = results (state w)
  /\ (named (state w) -> state w2 = state w).
Proof.
  cbn. rewrite !or_default_empty. repeat split.
  intros [Hty Hth]. rewrite !or_default_named by assumption.
  destruct (state w); reflexivity.
Qed.

Lemma toggled_theme (w : World) :
  theme (state (snd (toggleTheme w)))
  = if String.eqb (theme (state w)) "light" then "dark"%string
    else "light"%string.
Proof. reflexivity. Qed.

(** X9.  [toggleTheme] always ends on one of the two themes: from
    ["light"] it goes to ["dark"], from anything else, ["dark"] or not, to
    ["light"]; the new theme is stored at once and nothing else of the
    state changes.  Two toggles give back the state they started from when
    the theme was ["light"] or ["dark"], and end on ["dark"] otherwise. *)
Theorem toggleTheme_two_themes (w : World) :
  let w1 := snd (toggleTheme w) in
  let w2 := snd (toggleTheme w1) in
  (theme (state w1) = "light"%string \/ theme (state w1) = "dark"%string)
  /\ (theme (state w) = "light"%string -> theme (state w1) = "dark"%string)
  /\ (theme (state w) <> "light"%string
      -> theme (state w1) = "light"%string)
  /\ mortgageData w1 = Some (snapshot (state w1))
  /\ (principal (state w1), interestRate (state w1), loanTerm (state w1),
      mortgageType (state w1), results (state w1))
     = (principal (state w), interestRate (state w), loanTerm (state w),
        mortgageType (state w), results (state w))
  /\ (theme (state w) = "light"%string \/ theme (state w) = "dark"%string
      -> state w2 = state w)
  /\ (theme (state w) <> "light"%string
      -> theme (state w) <> "dark"%string
      -> theme (state w2) = "dark"%string).
Proof.
  cbv zeta.
  pose proof (toggled_theme w) as H1.
  pose proof (toggled_theme (snd (toggleTheme w))) as H2.
  rewrite H1 in H2.
  destruct (String.eqb_spec (theme (state w)) "light") as [E | N].
  - cbn in H2. rewrite H1. repeat split; try reflexivity; try tauto.
    intros _. destruct w as [[p i l m t r] d]. cbn in E. subst t.
    reflexivity.
  - cbn in H2. rewrite H1. repeat split; try reflexivity; try tauto.
    intros [C | D]; [contradiction |].
    destruct w as [[p i l m t r] d]. cbn in D. subst t.
    reflexivity.
Qed.

(** X10.  [resetForm] empties the three input texts, sets the loan type to
    ["fixed"], drops the results and keeps the theme; the stored copy is
    that of the new state.  A second reset changes nothing more, and when
    the theme is not empty neither does a load. *)
Theorem resetForm_clears_inputs_keeps_theme (w : World) :
  let w1 := snd (resetForm w) in
  state w1
  = {| principal := ""; interestRate := ""; loanTerm := "";
       mortgageType := "fixed"; theme := theme (state w); results := None |}
  /\ mortgageData w1 = Some (snapshot (state w1))
  /\ snd (resetForm w1) = w1
  /\ (theme (state w) <> EmptyString -> loadFromStorage w1 = (true, w1)).
Proof.
  cbv zeta. repeat split.
  intros Hth. unfold resetForm, bind, modify_state. cbn.
  rewrite or_default_named by exact Hth. reflexivity.
Qed.

(** *** The stored copy follows the state *)

Lemma load_noop (w : World) :
  named (state w) -> mirrors w -> snd (loadFromStorage w) = w.
Proof.
  intros Hn Hm. destruct w as [s [d |]]; [| reflexivity].
  rewrite (Hm d eq_refl). cbn [state].
  now rewrite (load_snapshot s Hn).
Qed.

Lemma perform_keeps_mirror (a : action) (w : World) :
  match a with SetTheme t => t <> EmptyString | _ => True end ->
  named (state w) -> mirrors w ->
  named (state (perform a w)) /\ mirrors (perform a w).
Proof.
  intros Ha Hn Hm.
  destruct a as [| | t | | | r]; cbn [perform].
  - split; [exact Hn |]. intros d E. cbn in E. now injection E as <-.
  - rewrite (load_noop w Hn Hm). now split.
  - split.
    + destruct Hn as [Hty _]. split; [exact Hty | exact Ha].
    + intros d E. cbn in E. now injection E as <-.
  - split.
    + destruct Hn as [Hty _]. split; [exact Hty |].
      rewrite toggled_theme.
      destruct (String.eqb (theme (state w)) "light"); discriminate.
    + intros d E. cbn in E. now injection E as <-.
  - split.
    + destruct Hn as [_ Hth]. split; [discriminate | exact Hth].
    + intros d E. cbn in E. now injection E as <-.
  - split; [exact Hn |]. intros d E. cbn in E. exact (Hm d E).
Qed.

(** X11.  Starting from a world whose loan type and theme are not empty and
    whose stored copy, if any, is that of the state, every sequence of
    shell operations (save, load, set or toggle the theme, reset, set the
    results) that never sets an empty theme keeps it so: what is stored is
    always a copy of the current state, and loading it changes nothing. *)
Theorem stored_copy_follows_state (l : list action) (w : World) :
  named (state w) -> mirrors w -> themes_named l ->
  named (state (perform_all l w))
  /\ mirrors (perform_all l w)
  /\ snd (loadFromStorage (perform_all l w)) = perform_all l w.
Proof.
  revert w. induction l as [| a l IH]; intros w Hn Hm Hl.
  - cbn. repeat split; try assumption; try apply Hn.
    now apply load_noop.
  - change (perform_all (a :: l) w) with (perform_all l (perform a w)).
    assert (Ha : match a with SetTheme t => t <> EmptyString | _ => True end
                 /\ themes_named l).
    { destruct a; cbn in Hl; tauto. }
    destruct Ha as [Ha Hl'].
    destruct (perform_keeps_mirror a w Ha Hn Hm) as [Hn' Hm'].
    exact (IH _ Hn' Hm' Hl').
Qed.

(** From the initial world: set the dark theme, load, reset, toggle. *)
Lemma stored_copy_follows_state_witness :
  named (state (perform_all
                  [SetTheme "dark"; LoadFromStorage; ResetForm; ToggleTheme]
                  initial_world))
  /\ mirrors (perform_all
                [SetTheme "dark"; LoadFromStorage; ResetForm; ToggleTheme]
                initial_world)
  /\ snd (loadFromStorage
            (perform_all
               [SetTheme "dark"; LoadFromStorage; ResetForm; ToggleTheme]
               initial_world))
     = perform_all
         [SetTheme "dark"; LoadFromStorage; ResetForm; ToggleTheme]
         initial_world.
Proof.
  apply (stored_copy_follows_state
           [SetTheme "dark"; LoadFromStorage; ResetForm; ToggleTheme]
           initial_world).
  - split; discriminate.
  - intros d E. discriminate E.
  - cbn. split; [discriminate | exact I].
Defined.
